(** * Clock-Display: the decoder and the display encoder of clock_update.c

    A shallow embedding of the three functions of [clock_update.c]
    ([set_tod_from_ports], [set_display_from_tod], [clock_update]) and the
    properties of them that the specification states. *)

From Stdlib Require Import ZArith List Lia Bool.
Import ListNotations.

Local Open Scope Z_scope.
Local Open Scope bool_scope.

(** ** C integer operators

    Every value the three functions compute stays far inside the range of a
    32-bit [int] (the largest is the display pattern, below [2^30]), so an
    [int] is a [Z] here.  Division and remainder truncate toward zero as in
    C; the shifts and the bitwise or are those of [Z]. *)

Module C.

Definition div (a b : Z) : Z := Z.quot a b.
Definition rem (a b : Z) : Z := Z.rem a b.
Definition shr (a n : Z) : Z := Z.shiftr a n.
Definition shl (a n : Z) : Z := Z.shiftl a n.
Definition bor (a b : Z) : Z := Z.lor a b.

(** A binary literal [0b...], most significant digit first. *)
Definition binary (digits : list Z) : Z :=
  fold_left (fun acc d => 2 * acc + d) digits 0.

End C.

(** ** Data *)

(** Modelled from the spec: [clock.h] is not part of the sources, so the
    struct [tod_t] is taken from the fields the code uses and from the
    TimeOfDay of the specification: five integer fields. *)
Record tod_t : Set := mk_tod {
  day_secs : Z;
  time_secs : Z;
  time_mins : Z;
  time_hours : Z;
  ampm : Z
}.

(** Modelled from the spec: the two global port variables that [clock.h]
    declares; both are integer cells. *)
Record ports : Set := mk_ports {
  TIME_OF_DAY_PORT : Z;
  CLOCK_DISPLAY_PORT : Z
}.

(** Field stores, [tod->f = v]. *)
Definition set_day_secs (v : Z) (t : tod_t) : tod_t :=
  mk_tod v (time_secs t) (time_mins t) (time_hours t) (ampm t).
Definition set_time_secs (v : Z) (t : tod_t) : tod_t :=
  mk_tod (day_secs t) v (time_mins t) (time_hours t) (ampm t).
Definition set_time_mins (v : Z) (t : tod_t) : tod_t :=
  mk_tod (day_secs t) (time_secs t) v (time_hours t) (ampm t).
Definition set_time_hours (v : Z) (t : tod_t) : tod_t :=
  mk_tod (day_secs t) (time_secs t) (time_mins t) v (ampm t).
Definition set_ampm (v : Z) (t : tod_t) : tod_t :=
  mk_tod (day_secs t) (time_secs t) (time_mins t) (time_hours t) v.

Definition set_CLOCK_DISPLAY_PORT (v : Z) (g : ports) : ports :=
  mk_ports (TIME_OF_DAY_PORT g) v.

(** The meridiem codes of the [ampm] field. *)
Definition AM : Z := 1.
Definition PM : Z := 2.

(** ** [set_tod_from_ports]

    The function reads the global [TIME_OF_DAY_PORT] and writes through the
    pointer [tod]: the model takes the globals and the pointed-to struct and
    returns the result code with the struct as the call leaves it. *)
Definition set_tod_from_ports (g : ports) (tod : tod_t) : Z * tod_t :=
  let port_val := TIME_OF_DAY_PORT g in
  if (port_val <? 0) || (port_val >? 16 * 86400) then (1, tod)
  else
    let tod := set_day_secs (C.shr (port_val + 8) 4) tod in
    let tod := set_time_hours (C.rem (C.div (day_secs tod) 3600) 24) tod in
    let tod :=
      if time_hours tod =? 0 then set_time_hours 12 tod
      else if time_hours tod >? 12 then set_time_hours (time_hours tod - 12) tod
      else tod in
    let tod := set_time_mins (C.div (C.rem (day_secs tod) 3600) 60) tod in
    let tod := set_time_secs (C.rem (day_secs tod) 60) tod in
    let tod :=
      if day_secs tod >=? 43200 then set_ampm 2 tod
      else set_ampm 1 tod in
    (0, tod).

(** The raw readings the decoder takes. *)
Definition valid_port (raw : Z) : Prop := 0 <= raw <= 16 * 86400.

(** The invariant of the specification's TimeOfDay. *)
Definition tod_invariant (t : tod_t) : Prop :=
  0 <= time_secs t <= 59 /\
  0 <= time_mins t <= 59 /\
  1 <= time_hours t <= 12 /\
  (ampm t = AM \/ ampm t = PM).

(** *** The decoder as the specification words it

    Seconds are the raw reading over 16, rounded to the nearest integer with
    a tie going up; the fields are given by floor division and the
    mathematical modulus. *)
Module Spec.

Definition round_half_up_16 (raw : Z) : Z :=
  if raw mod 16 <? 8 then raw / 16 else raw / 16 + 1.

Definition hour_24 (secs : Z) : Z := (secs / 3600) mod 24.

Definition hour_12 (h24 : Z) : Z :=
  if h24 =? 0 then 12 else if 12 <? h24 then h24 - 12 else h24.

Definition minute (secs : Z) : Z := (secs mod 3600) / 60.

Definition second (secs : Z) : Z := secs mod 60.

Definition meridiem (secs : Z) : Z := if 43200 <=? secs then PM else AM.

Definition decode (raw : Z) : tod_t :=
  let secs := round_half_up_16 raw in
  mk_tod secs (second secs) (minute secs) (hour_12 (hour_24 secs)) (meridiem secs).

End Spec.

(** ** [set_display_from_tod]

    Reading [mask[i]] with [i] outside [0..9] is undefined in C; the model
    makes it an explicit failure, threaded through the function by a small
    error monad.  [None] therefore stands for "the C program has no defined
    behaviour here", and [Some (code, display)] for a return of [code] that
    leaves [display] in the pointed-to cell. *)

Definition bind {A B : Type} (m : option A) (k : A -> option B) : option B :=
  match m with
  | Some a => k a
  | None => None
  end.

Notation "x <- m ;; k" := (bind m (fun x => k))
  (at level 61, m at next level, right associativity).

(** bit masks that correspond to digits 0-9 *)
Definition mask : list Z :=
  [ C.binary [1;1;1;0;1;1;1]; C.binary [0;1;0;0;1;0;0];
    C.binary [1;0;1;1;1;0;1]; C.binary [1;1;0;1;1;0;1];
    C.binary [0;1;0;1;1;1;0]; C.binary [1;1;0;1;0;1;1];
    C.binary [1;1;1;1;0;1;1]; C.binary [0;1;0;0;1;0;1];
    C.binary [1;1;1;1;1;1;1]; C.binary [1;1;0;1;1;1;1] ].

(** The array read [mask[i]]. *)
Definition mask_at (i : Z) : option Z :=
  if i <? 0 then None else nth_error mask (Z.to_nat i).

(** The range check at the head of the function. *)
Definition tod_rejected (tod : tod_t) : bool :=
  (time_secs tod <? 0) || (time_secs tod >? 59) ||
  (time_mins tod <? 0) || (time_mins tod >? 59) ||
  (time_hours tod <? 0) || (time_hours tod >? 12) ||
  (ampm tod >? 2).

Definition set_display_from_tod (tod : tod_t) (display : Z) : option (Z * Z) :=
  if tod_rejected tod then Some (1, display)
  else
    let min_ones := C.rem (time_mins tod) 10 in
    let min_tens := C.div (time_mins tod) 10 in
    let hrs_ones := C.rem (time_hours tod) 10 in
    let hrs_tens := C.div (time_hours tod) 10 in
    m_min_ones <- mask_at min_ones ;;
    let display := m_min_ones in
    display <-
      (if hrs_tens =? 0 then
         m_min_tens <- mask_at min_tens ;;
         m_hrs_ones <- mask_at hrs_ones ;;
         Some (C.bor (C.bor (C.shl m_min_tens 7) (C.shl m_hrs_ones 14)) display)
       else
         m_min_tens <- mask_at min_tens ;;
         m_hrs_ones <- mask_at hrs_ones ;;
         m_hrs_tens <- mask_at hrs_tens ;;
         Some (C.bor (C.bor (C.bor (C.shl m_min_tens 7) (C.shl m_hrs_ones 14))
                            (C.shl m_hrs_tens 21)) display)) ;;
    let display :=
      if ampm tod =? 1 then C.bor (C.shl 1 28) display
      else C.bor (C.shl 1 29) display in
    Some (0, display).

(** The glyph of a decimal digit: the table entry, read totally. *)
Definition glyph (d : Z) : Z := nth (Z.to_nat d) mask 0.

(** The 7-bit field of a display pattern that starts at bit [off]. *)
Definition field (off pattern : Z) : Z := Z.land (Z.shiftr pattern off) 127.

(** The pattern the function composes, as one expression: four glyphs and
    the meridiem bit [flag_bit]. *)
Definition compose (min_ones min_tens hrs_ones hrs_tens flag_bit : Z) : Z :=
  Z.lor (Z.shiftl 1 flag_bit)
        (Z.lor (Z.lor (Z.lor (Z.shiftl min_tens 7) (Z.shiftl hrs_ones 14))
                      (Z.shiftl hrs_tens 21))
               min_ones).

(** The pattern of a struct that passes the check, as a function of its
    minute, hour and [ampm]. *)
Definition pattern_of (tod : tod_t) : Z :=
  compose (glyph (time_mins tod mod 10)) (glyph (time_mins tod / 10))
          (glyph (time_hours tod mod 10))
          (if time_hours tod <? 10 then 0 else glyph (time_hours tod / 10))
          (if ampm tod =? 1 then 28 else 29).

(** ** [clock_update]

    [tod0] is the content of the uninitialised local [tod]; the result of
    [set_display_from_tod] is dropped, as in the source, and the local
    [ptr] is stored in [CLOCK_DISPLAY_PORT]. *)
Definition clock_update (g : ports) (tod0 : tod_t) : option (Z * ports) :=
  let '(result, tod) := set_tod_from_ports g tod0 in
  if result =? 1 then Some (1, g)
  else
    let ptr := 0 in
    r <- set_display_from_tod tod ptr ;;
    let ptr := snd r in
    let g := set_CLOCK_DISPLAY_PORT ptr g in
    Some (0, g).

(** * Properties *)

(** ** Arithmetic of the C operators on the values the code meets *)

Section CArith.

Lemma c_div_nonneg (a b : Z) : 0 <= a -> 0 < b -> C.div a b = a / b.
Proof. intros Ha Hb. unfold C.div. apply Z.quot_div_nonneg; lia. Qed.

Lemma c_rem_nonneg (a b : Z) : 0 <= a -> 0 < b -> C.rem a b = a mod b.
Proof. intros Ha Hb. unfold C.rem. apply Z.rem_mod_nonneg; lia. Qed.

Lemma shr4_round (raw : Z) : C.shr (raw + 8) 4 = Spec.round_half_up_16 raw.
Proof.
  unfold C.shr, Spec.round_half_up_16.
  rewrite Z.shiftr_div_pow2 by lia.
  change (2 ^ 4) with 16.
  pose proof (Z.div_mod raw 16 ltac:(lia)) as Hraw.
  pose proof (Z.mod_pos_bound raw 16 ltac:(lia)) as Hr.
  destruct (Z.ltb_spec (raw mod 16) 8) as [Hlt | Hge].
  - symmetry. apply Z.div_unique with (r := raw mod 16 + 8); lia.
  - symmetry. apply Z.div_unique with (r := raw mod 16 - 8); lia.
Qed.

Lemma round_bounds (raw : Z) :
  valid_port raw -> 0 <= Spec.round_half_up_16 raw <= 86400.
Proof.
  unfold valid_port. intros Hv. rewrite <- shr4_round. unfold C.shr.
  rewrite Z.shiftr_div_pow2 by lia. change (2 ^ 4) with 16.
  split.
  - apply Z.div_pos; lia.
  - apply Z.lt_succ_r. apply Z.div_lt_upper_bound; lia.
Qed.

End CArith.

(** ** The decoder *)

Lemma port_guard_false (raw : Z) :
  valid_port raw -> (raw <? 0) || (raw >? 16 * 86400) = false.
Proof. unfold valid_port. intros Hv. apply orb_false_iff. split; lia. Qed.

Lemma port_guard_true (raw : Z) :
  ~ valid_port raw -> (raw <? 0) || (raw >? 16 * 86400) = true.
Proof. unfold valid_port. intros Hv. apply orb_true_iff. lia. Qed.

Lemma valid_port_dec (raw : Z) : {valid_port raw} + {~ valid_port raw}.
Proof.
  unfold valid_port.
  destruct (Z_le_dec 0 raw); destruct (Z_le_dec raw (16 * 86400)); (left; lia) || (right; lia).
Qed.

(** Outside the valid range the call returns 1 and the struct is as it was. *)
Lemma set_tod_from_ports_rejects (g : ports) (tod : tod_t) :
  ~ valid_port (TIME_OF_DAY_PORT g) -> set_tod_from_ports g tod = (1, tod).
Proof.
  intros Hv. unfold set_tod_from_ports. cbv zeta.
  now rewrite (port_guard_true _ Hv).
Qed.

(** On the valid range the code computes the decoder of the specification:
    truncating and flooring division agree because nothing is negative. *)
Lemma set_tod_from_ports_decodes (g : ports) (tod : tod_t) :
  valid_port (TIME_OF_DAY_PORT g) ->
  set_tod_from_ports g tod = (0, Spec.decode (TIME_OF_DAY_PORT g)).
Proof.
  intros Hv. unfold set_tod_from_ports. cbv zeta.
  rewrite (port_guard_false _ Hv).
  pose proof (round_bounds _ Hv) as Hs.
  unfold Spec.decode. cbv zeta.
  rewrite shr4_round.
  set (s := Spec.round_half_up_16 (TIME_OF_DAY_PORT g)) in *.
  cbn [day_secs time_hours set_day_secs set_time_hours time_secs time_mins ampm].
  assert (Hq : C.div s 3600 = s / 3600) by (apply c_div_nonneg; lia).
  assert (Hq0 : 0 <= s / 3600) by (apply Z.div_pos; lia).
  assert (Hh : C.rem (C.div s 3600) 24 = Spec.hour_24 s).
  { rewrite Hq. unfold Spec.hour_24. apply c_rem_nonneg; lia. }
  assert (Hm : C.div (C.rem s 3600) 60 = Spec.minute s).
  { unfold Spec.minute. rewrite c_rem_nonneg by lia.
    apply c_div_nonneg; [ apply Z.mod_pos_bound | ]; lia. }
  assert (Hsec : C.rem s 60 = Spec.second s).
  { unfold Spec.second. apply c_rem_nonneg; lia. }
  rewrite Hh. unfold Spec.hour_12, Spec.meridiem.
  rewrite Z.gtb_ltb.
  destruct (Spec.hour_24 s =? 0); [ | destruct (12 <? Spec.hour_24 s) ];
    cbn [day_secs time_hours set_day_secs set_time_hours set_time_mins set_time_secs
         set_ampm time_secs time_mins ampm];
    rewrite Hm, Hsec, Z.geb_leb; destruct (43200 <=? s); reflexivity.
Qed.

(** Every value of the specification's decoder meets the TimeOfDay
    invariant: the fields are residues and quotients of residues. *)
Lemma decode_invariant (raw : Z) : tod_invariant (Spec.decode raw).
Proof.
  unfold tod_invariant, Spec.decode. cbv zeta.
  cbn [time_secs time_mins time_hours ampm].
  set (s := Spec.round_half_up_16 raw).
  repeat split.
  - apply Z.mod_pos_bound; lia.
  - pose proof (Z.mod_pos_bound s 60 ltac:(lia)). unfold Spec.second. lia.
  - unfold Spec.minute. apply Z.div_pos; [ apply Z.mod_pos_bound | ]; lia.
  - unfold Spec.minute. apply Z.lt_succ_r. apply Z.div_lt_upper_bound; [ lia | ].
    pose proof (Z.mod_pos_bound s 3600 ltac:(lia)). lia.
  - unfold Spec.hour_12, Spec.hour_24.
    pose proof (Z.mod_pos_bound (s / 3600) 24 ltac:(lia)).
    destruct (Z.eqb_spec ((s / 3600) mod 24) 0); [ lia | ].
    destruct (Z.ltb_spec 12 ((s / 3600) mod 24)); lia.
  - unfold Spec.hour_12, Spec.hour_24.
    pose proof (Z.mod_pos_bound (s / 3600) 24 ltac:(lia)).
    destruct (Z.eqb_spec ((s / 3600) mod 24) 0); [ lia | ].
    destruct (Z.ltb_spec 12 ((s / 3600) mod 24)); lia.
  - unfold Spec.meridiem. destruct (43200 <=? s); [ right | left ]; reflexivity.
Qed.

(** A call that returns 0 was made on a valid port value. *)
Lemma set_tod_from_ports_success_inv (g : ports) (tod t : tod_t) :
  set_tod_from_ports g tod = (0, t) ->
  valid_port (TIME_OF_DAY_PORT g) /\ t = Spec.decode (TIME_OF_DAY_PORT g).
Proof.
  intros Hcall.
  destruct (valid_port_dec (TIME_OF_DAY_PORT g)) as [Hv | Hv].
  - rewrite (set_tod_from_ports_decodes g tod Hv) in Hcall.
    split; [ assumption | congruence ].
  - rewrite (set_tod_from_ports_rejects g tod Hv) in Hcall. discriminate.
Qed.

(** The last eight sixteenths of the day, and the full day, round to 86400. *)
Lemma round_last_half_second (raw : Z) :
  16 * 86400 - 8 <= raw <= 16 * 86400 -> Spec.round_half_up_16 raw = 86400.
Proof.
  intros Hr. rewrite <- shr4_round. unfold C.shr.
  rewrite Z.shiftr_div_pow2 by lia. change (2 ^ 4) with 16.
  symmetry. apply Z.div_unique with (r := raw + 8 - 16 * 86400); lia.
Qed.

(** The rounded value is the integer nearest to [raw / 16]; at a tie it is
    the upper one. *)
Lemma round_nearest (raw : Z) :
  16 * Spec.round_half_up_16 raw - 8 <= raw < 16 * Spec.round_half_up_16 raw + 8.
Proof.
  unfold Spec.round_half_up_16.
  pose proof (Z.div_mod raw 16 ltac:(lia)).
  pose proof (Z.mod_pos_bound raw 16 ltac:(lia)).
  destruct (Z.ltb_spec (raw mod 16) 8); lia.
Qed.

(** C1 (the code departs from the claim): for every raw port value in
    [16*86400 - 8, 16*86400] the call succeeds with [day_secs = 86400] and
    the hour folded to 12, but the meridiem it stores is PM (2), not the AM
    the claim states: the test [day_secs >= 43200] is made on the unfolded
    seconds. *)
Theorem set_tod_from_ports_midnight_rounding_is_pm (g : ports) (tod : tod_t) :
  16 * 86400 - 8 <= TIME_OF_DAY_PORT g <= 16 * 86400 ->
  set_tod_from_ports g tod = (0, mk_tod 86400 0 0 12 PM).
Proof.
  intros Hr.
  rewrite set_tod_from_ports_decodes by (unfold valid_port; lia).
  unfold Spec.decode. rewrite (round_last_half_second _ Hr). reflexivity.
Qed.

Lemma set_tod_from_ports_midnight_rounding_is_pm_at_full_day :
  set_tod_from_ports (mk_ports (16 * 86400) 0) (mk_tod 0 0 0 0 0)
  = (0, mk_tod 86400 0 0 12 2).
Proof.
  apply (set_tod_from_ports_midnight_rounding_is_pm
           (mk_ports (16 * 86400) 0) (mk_tod 0 0 0 0 0)).
  cbn. lia.
Defined.

(** C3: [set_tod_from_ports] returns 0 exactly when the port value is in
    [0, 16*86400]; for such a value the [day_secs] it stores is in
    [0, 86400]; for any other value it returns 1 and the struct behind
    [tod] is not written. *)
Theorem set_tod_from_ports_range_check (g : ports) (tod : tod_t) :
  (fst (set_tod_from_ports g tod) = 0 <-> 0 <= TIME_OF_DAY_PORT g <= 16 * 86400) /\
  (0 <= TIME_OF_DAY_PORT g <= 16 * 86400 ->
   0 <= day_secs (snd (set_tod_from_ports g tod)) <= 86400) /\
  (TIME_OF_DAY_PORT g < 0 \/ 16 * 86400 < TIME_OF_DAY_PORT g ->
   set_tod_from_ports g tod = (1, tod)).
Proof.
  destruct (valid_port_dec (TIME_OF_DAY_PORT g)) as [Hv | Hv].
  - rewrite (set_tod_from_ports_decodes g tod Hv).
    pose proof (round_bounds _ Hv) as Hb. unfold valid_port in Hv.
    cbn [fst snd Spec.decode day_secs].
    repeat split; try lia.
  - rewrite (set_tod_from_ports_rejects g tod Hv). unfold valid_port in Hv.
    cbn [fst snd]. repeat split; try lia; try reflexivity.
Qed.

Lemma set_tod_from_ports_range_check_witness :
  (fst (set_tod_from_ports (mk_ports 638496 0) (mk_tod 0 0 0 0 0)) = 0) /\
  (0 <= day_secs (snd (set_tod_from_ports (mk_ports 638496 0) (mk_tod 0 0 0 0 0))) <= 86400) /\
  set_tod_from_ports (mk_ports (-1) 0) (mk_tod 0 0 0 0 0) = (1, mk_tod 0 0 0 0 0).
Proof.
  split; [ | split ].
  - apply (proj1 (set_tod_from_ports_range_check (mk_ports 638496 0) (mk_tod 0 0 0 0 0))).
    cbn. lia.
  - apply (proj1 (proj2 (set_tod_from_ports_range_check (mk_ports 638496 0) (mk_tod 0 0 0 0 0)))).
    cbn. lia.
  - apply (proj2 (proj2 (set_tod_from_ports_range_check (mk_ports (-1) 0) (mk_tod 0 0 0 0 0)))).
    cbn. lia.
Defined.

(** C4: on a valid port value the stored [day_secs] is [(raw + 8) >> 4],
    which is [raw / 16] rounded to the nearest integer, a tie going up;
    raw values 15 and 8 give 1 second, raw value 7 gives 0. *)
Theorem set_tod_from_ports_rounds_half_up :
  (forall (g : ports) (tod : tod_t),
     0 <= TIME_OF_DAY_PORT g <= 16 * 86400 ->
     let raw := TIME_OF_DAY_PORT g in
     let d := day_secs (snd (set_tod_from_ports g tod)) in
     d = C.shr (raw + 8) 4 /\
     d = Spec.round_half_up_16 raw /\
     16 * d - 8 <= raw < 16 * d + 8) /\
  (forall (out : Z) (tod : tod_t),
     day_secs (snd (set_tod_from_ports (mk_ports 15 out) tod)) = 1 /\
     day_secs (snd (set_tod_from_ports (mk_ports 8 out) tod)) = 1 /\
     day_secs (snd (set_tod_from_ports (mk_ports 7 out) tod)) = 0).
Proof.
  split.
  - intros g tod Hv raw d. subst raw d.
    rewrite (set_tod_from_ports_decodes g tod Hv).
    cbn [snd Spec.decode day_secs].
    split; [ symmetry; apply shr4_round | ].
    split; [ reflexivity | apply round_nearest ].
  - intros out tod. repeat split.
Qed.

Lemma set_tod_from_ports_rounds_half_up_witness :
  let raw := 24 in
  let d := day_secs (snd (set_tod_from_ports (mk_ports 24 0) (mk_tod 0 0 0 0 0))) in
  d = C.shr (raw + 8) 4 /\
  d = Spec.round_half_up_16 raw /\
  16 * d - 8 <= raw < 16 * d + 8.
Proof.
  apply (proj1 set_tod_from_ports_rounds_half_up (mk_ports 24 0) (mk_tod 0 0 0 0 0)).
  cbn. lia.
Defined.

(** C5: after a successful decode the hour is [(day_secs / 3600) mod 24]
    put in 12-hour form (0 becomes 12, a value above 12 loses 12), the
    minute is [(day_secs mod 3600) / 60], the second is [day_secs mod 60],
    and the meridiem is PM exactly when [day_secs >= 43200]; the seconds
    0, 3600, 43200 and 46800 read 12 AM, 1 AM, 12 PM and 1 PM. *)
Theorem set_tod_from_ports_fields :
  (forall (g : ports) (tod t : tod_t),
     set_tod_from_ports g tod = (0, t) ->
     let s := day_secs t in
     time_hours t = Spec.hour_12 ((s / 3600) mod 24) /\
     time_mins t = (s mod 3600) / 60 /\
     time_secs t = s mod 60 /\
     (ampm t = PM <-> 43200 <= s) /\
     (ampm t = AM <-> s < 43200)) /\
  (forall (out : Z) (tod : tod_t),
     set_tod_from_ports (mk_ports (16 * 0) out) tod = (0, mk_tod 0 0 0 12 AM) /\
     set_tod_from_ports (mk_ports (16 * 3600) out) tod = (0, mk_tod 3600 0 0 1 AM) /\
     set_tod_from_ports (mk_ports (16 * 43200) out) tod = (0, mk_tod 43200 0 0 12 PM) /\
     set_tod_from_ports (mk_ports (16 * 46800) out) tod = (0, mk_tod 46800 0 0 1 PM)).
Proof.
  split.
  - intros g tod t Hcall s. subst s.
    destruct (set_tod_from_ports_success_inv g tod t Hcall) as [_ ->].
    unfold Spec.decode. cbv zeta. cbn [day_secs time_hours time_mins time_secs ampm].
    set (s := Spec.round_half_up_16 (TIME_OF_DAY_PORT g)).
    repeat split; unfold Spec.meridiem, AM, PM;
      destruct (Z.leb_spec 43200 s); intros; (lia || reflexivity || discriminate).
  - intros out tod. repeat split.
Qed.

Lemma set_tod_from_ports_fields_witness :
  let t := mk_tod 39906 6 5 11 1 in
  let s := day_secs t in
  time_hours t = Spec.hour_12 ((s / 3600) mod 24) /\
  time_mins t = (s mod 3600) / 60 /\
  time_secs t = s mod 60 /\
  (ampm t = PM <-> 43200 <= s) /\
  (ampm t = AM <-> s < 43200).
Proof.
  apply (proj1 set_tod_from_ports_fields (mk_ports (16 * 39906) 0) (mk_tod 0 0 0 0 0)).
  reflexivity.
Defined.

(** C6: every struct a successful [set_tod_from_ports] leaves behind meets
    the TimeOfDay invariant: the hour is in [1, 12], minute and second are
    in [0, 59], and [ampm] is 1 or 2. *)
Theorem set_tod_from_ports_establishes_invariant (g : ports) (tod t : tod_t) :
  set_tod_from_ports g tod = (0, t) ->
  1 <= time_hours t <= 12 /\
  0 <= time_mins t <= 59 /\
  0 <= time_secs t <= 59 /\
  (ampm t = 1 \/ ampm t = 2).
Proof.
  intros Hcall.
  destruct (set_tod_from_ports_success_inv g tod t Hcall) as [_ ->].
  destruct (decode_invariant (TIME_OF_DAY_PORT g)) as (Hs & Hm & Hh & Ha).
  auto.
Qed.

Lemma set_tod_from_ports_establishes_invariant_witness :
  1 <= time_hours (mk_tod 86399 59 59 11 2) <= 12 /\
  0 <= time_mins (mk_tod 86399 59 59 11 2) <= 59 /\
  0 <= time_secs (mk_tod 86399 59 59 11 2) <= 59 /\
  (ampm (mk_tod 86399 59 59 11 2) = 1 \/ ampm (mk_tod 86399 59 59 11 2) = 2).
Proof.
  apply (set_tod_from_ports_establishes_invariant
           (mk_ports (16 * 86399) 0) (mk_tod 0 0 0 0 0)).
  reflexivity.
Defined.

(** ** Bit fields of a composed pattern *)

Section BitFields.

Lemma testbit_7bit (x k : Z) :
  0 <= x < 128 -> k < 0 \/ 7 <= k -> Z.testbit x k = false.
Proof.
  intros Hx [Hk | Hk].
  - now apply Z.testbit_neg_r.
  - rewrite <- (Z.mod_small x (2 ^ 7)) by (change (2 ^ 7) with 128; lia).
    apply Z.mod_pow2_bits_high. lia.
Qed.

Lemma testbit_flag (f m : Z) : 0 <= f -> Z.testbit (Z.shiftl 1 f) m = (f =? m).
Proof.
  intros Hf. rewrite Z.shiftl_1_l. now apply Z.pow2_bits_eqb.
Qed.

Variables a b c d f : Z.
Hypothesis Ha : 0 <= a < 128.
Hypothesis Hb : 0 <= b < 128.
Hypothesis Hc : 0 <= c < 128.
Hypothesis Hd : 0 <= d < 128.
Hypothesis Hf : 28 <= f <= 29.

Lemma compose_testbit (m : Z) :
  0 <= m ->
  Z.testbit (compose a b c d f) m =
  (f =? m) || (Z.testbit b (m - 7) || Z.testbit c (m - 14) || Z.testbit d (m - 21)
               || Z.testbit a m).
Proof.
  intros Hm. unfold compose.
  rewrite !Z.lor_spec, testbit_flag by lia.
  now rewrite !Z.shiftl_spec by lia.
Qed.

Lemma field_testbit (off p n : Z) :
  0 <= off -> 0 <= n ->
  Z.testbit (field off p) n = (n <? 7) && Z.testbit p (n + off).
Proof.
  intros Hoff Hn. unfold field.
  change 127 with (Z.ones 7). rewrite Z.land_ones by lia.
  rewrite Z.testbit_mod_pow2 by lia. now rewrite Z.shiftr_spec by lia.
Qed.

Lemma field_0_compose : field 0 (compose a b c d f) = a.
Proof.
  apply Z.bits_inj'; intros n Hn.
  rewrite field_testbit, compose_testbit by lia.
  destruct (Z.ltb_spec n 7) as [Hlt | Hge]; cbn [andb].
  - replace (f =? n + 0) with false by (symmetry; apply Z.eqb_neq; lia).
    replace (n + 0) with n by lia.
    rewrite (testbit_7bit b), (testbit_7bit c), (testbit_7bit d) by lia.
    reflexivity.
  - symmetry. apply testbit_7bit; lia.
Qed.

Lemma field_7_compose : field 7 (compose a b c d f) = b.
Proof.
  apply Z.bits_inj'; intros n Hn.
  rewrite field_testbit, compose_testbit by lia.
  destruct (Z.ltb_spec n 7) as [Hlt | Hge]; cbn [andb].
  - replace (f =? n + 7) with false by (symmetry; apply Z.eqb_neq; lia).
    replace (n + 7 - 7) with n by lia.
    rewrite (testbit_7bit a), (testbit_7bit c), (testbit_7bit d) by lia.
    cbn [orb]. now rewrite !orb_false_r.
  - symmetry. apply testbit_7bit; lia.
Qed.

Lemma field_14_compose : field 14 (compose a b c d f) = c.
Proof.
  apply Z.bits_inj'; intros n Hn.
  rewrite field_testbit, compose_testbit by lia.
  destruct (Z.ltb_spec n 7) as [Hlt | Hge]; cbn [andb].
  - replace (f =? n + 14) with false by (symmetry; apply Z.eqb_neq; lia).
    replace (n + 14 - 14) with n by lia.
    rewrite (testbit_7bit a), (testbit_7bit b), (testbit_7bit d) by lia.
    cbn [orb]. now rewrite !orb_false_r.
  - symmetry. apply testbit_7bit; lia.
Qed.

Lemma field_21_compose : field 21 (compose a b c d f) = d.
Proof.
  apply Z.bits_inj'; intros n Hn.
  rewrite field_testbit, compose_testbit by lia.
  destruct (Z.ltb_spec n 7) as [Hlt | Hge]; cbn [andb].
  - replace (f =? n + 21) with false by (symmetry; apply Z.eqb_neq; lia).
    replace (n + 21 - 21) with n by lia.
    rewrite (testbit_7bit a), (testbit_7bit b), (testbit_7bit c) by lia.
    cbn [orb]. now rewrite !orb_false_r.
  - symmetry. apply testbit_7bit; lia.
Qed.

Lemma flag_bit_compose (m : Z) :
  28 <= m <= 29 -> Z.testbit (compose a b c d f) m = (f =? m).
Proof.
  intros Hm. rewrite compose_testbit by lia.
  rewrite (testbit_7bit a), (testbit_7bit b), (testbit_7bit c), (testbit_7bit d) by lia.
  now rewrite !orb_false_r.
Qed.

(** The pattern is a 30-bit value, so it fits the [int] it is stored in. *)
Lemma compose_30bit : 0 <= compose a b c d f < 2 ^ 30.
Proof.
  assert (Hmod : compose a b c d f mod 2 ^ 30 = compose a b c d f).
  { apply Z.bits_inj'; intros n Hn.
    rewrite Z.testbit_mod_pow2 by lia.
    destruct (Z.ltb_spec n 30) as [Hlt | Hge]; [ reflexivity | ].
    rewrite compose_testbit by lia.
    rewrite (testbit_7bit a), (testbit_7bit b), (testbit_7bit c), (testbit_7bit d) by lia.
    symmetry. rewrite !orb_false_r. apply Z.eqb_neq. lia. }
  rewrite <- Hmod. apply Z.mod_pos_bound. lia.
Qed.

End BitFields.

(** ** The encoder *)

Lemma digit_cases (i : Z) :
  0 <= i <= 9 ->
  i = 0 \/ i = 1 \/ i = 2 \/ i = 3 \/ i = 4 \/ i = 5 \/ i = 6 \/ i = 7 \/ i = 8 \/ i = 9.
Proof. lia. Qed.

(** Inside [0..9] the array read is defined and yields the glyph. *)
Lemma mask_at_digit (i : Z) : 0 <= i <= 9 -> mask_at i = Some (glyph i).
Proof.
  intros Hi.
  destruct (digit_cases i Hi) as [-> | [-> | [-> | [-> | [-> | [-> | [-> | [-> | [-> | ->]]]]]]]]];
    reflexivity.
Qed.

(** Outside [0..9] it is not. *)
Lemma mask_at_outside (i : Z) : i < 0 \/ 9 < i -> mask_at i = None.
Proof.
  intros [Hi | Hi]; unfold mask_at.
  - destruct (Z.ltb_spec i 0); [ reflexivity | lia ].
  - destruct (Z.ltb_spec i 0); [ reflexivity | ].
    apply nth_error_None. change (length mask) with 10%nat. lia.
Qed.

(** Every glyph is a 7-bit value. *)
Lemma glyph_7bit (i : Z) : 0 <= glyph i < 128.
Proof.
  unfold glyph.
  destruct (Z.to_nat i) as [ | [ | [ | [ | [ | [ | [ | [ | [ | [ | n]]]]]]]]]];
    cbn; try lia.
  destruct n; cbn; lia.
Qed.

(** The range check, read as ranges. *)
Lemma tod_rejected_false (tod : tod_t) :
  tod_rejected tod = false <->
  0 <= time_secs tod <= 59 /\ 0 <= time_mins tod <= 59 /\
  0 <= time_hours tod <= 12 /\ ampm tod <= 2.
Proof.
  unfold tod_rejected. rewrite !orb_false_iff.
  rewrite !Z.ltb_ge, !Z.gtb_ltb, !Z.ltb_ge. tauto.
Qed.

Lemma tod_rejected_true (tod : tod_t) :
  tod_rejected tod = true <->
  ~ (0 <= time_secs tod <= 59 /\ 0 <= time_mins tod <= 59 /\
     0 <= time_hours tod <= 12 /\ ampm tod <= 2).
Proof.
  rewrite <- tod_rejected_false. destruct (tod_rejected tod); split; congruence.
Qed.

(** The decimal digits of a minute and of an hour that passed the check. *)
Lemma digits_in_range (v : Z) :
  0 <= v <= 59 ->
  C.rem v 10 = v mod 10 /\ C.div v 10 = v / 10 /\
  0 <= v mod 10 <= 9 /\ 0 <= v / 10 <= 5.
Proof.
  intros Hv.
  rewrite c_rem_nonneg, c_div_nonneg by lia.
  pose proof (Z.mod_pos_bound v 10 ltac:(lia)).
  assert (0 <= v / 10) by (apply Z.div_pos; lia).
  assert (v / 10 < 6) by (apply Z.div_lt_upper_bound; lia).
  repeat split; lia.
Qed.

Lemma hour_tens_zero (h : Z) : 0 <= h <= 12 -> (h / 10 =? 0) = (h <? 10).
Proof.
  intros Hh.
  destruct (Z.ltb_spec h 10) as [Hlt | Hge].
  - apply Z.eqb_eq. apply Z.div_small. lia.
  - apply Z.eqb_neq.
    assert (h / 10 = 1) by (symmetry; apply Z.div_unique with (r := h - 10); lia).
    lia.
Qed.

(** A struct that passes the check is encoded, with defined behaviour, as
    the composition of its glyphs; the tens-of-hours field is left empty
    below hour 10. *)
Lemma set_display_from_tod_accepts (tod : tod_t) (display : Z) :
  tod_rejected tod = false ->
  set_display_from_tod tod display =
  Some (0, compose (glyph (time_mins tod mod 10)) (glyph (time_mins tod / 10))
                   (glyph (time_hours tod mod 10))
                   (if time_hours tod <? 10 then 0 else glyph (time_hours tod / 10))
                   (if ampm tod =? 1 then 28 else 29)).
Proof.
  intros Hok. unfold set_display_from_tod. rewrite Hok. cbv zeta.
  apply tod_rejected_false in Hok. destruct Hok as (_ & Hm & Hh & _).
  destruct (digits_in_range _ Hm) as (-> & -> & Hm1 & Hm10).
  assert (Hh' : 0 <= time_hours tod <= 59) by lia.
  destruct (digits_in_range _ Hh') as (-> & -> & Hh1 & Hh10).
  rewrite (hour_tens_zero _ Hh).
  rewrite !mask_at_digit by lia. cbn [bind].
  unfold compose, C.bor, C.shl.
  destruct (time_hours tod <? 10); cbn [bind];
    [ rewrite Z.shiftl_0_l, Z.lor_0_r | ];
    destruct (ampm tod =? 1); reflexivity.
Qed.

Lemma set_display_from_tod_rejects (tod : tod_t) (display : Z) :
  tod_rejected tod = true -> set_display_from_tod tod display = Some (1, display).
Proof. intros Hbad. unfold set_display_from_tod. now rewrite Hbad. Qed.

(** A call that returns 0 was made on a struct that passes the check. *)
Lemma set_display_from_tod_success_inv (tod : tod_t) (display d : Z) :
  set_display_from_tod tod display = Some (0, d) -> tod_rejected tod = false.
Proof.
  intros Hcall. destruct (tod_rejected tod) eqn:Hrej; [ | reflexivity ].
  rewrite (set_display_from_tod_rejects _ _ Hrej) in Hcall. discriminate.
Qed.

Lemma tens_of_hours_7bit (h : Z) :
  0 <= (if h <? 10 then 0 else glyph (h / 10)) < 128.
Proof. destruct (h <? 10); [ lia | apply glyph_7bit ]. Qed.

Lemma flag_bit_range (m : Z) : 28 <= (if m =? 1 then 28 else 29) <= 29.
Proof. destruct (m =? 1); lia. Qed.

Lemma invariant_passes_check (tod : tod_t) :
  tod_invariant tod -> tod_rejected tod = false.
Proof.
  unfold tod_invariant, AM, PM. intros (Hs & Hm & Hh & Ha).
  apply tod_rejected_false. repeat split; lia.
Qed.

(** C2 (counterexample): the struct 12:00:00 with hour field 0 and
    [ampm = 1] breaks the invariant [hour in [1,12]], yet the call returns
    0 and overwrites [*display]: the check on the hour is [time_hours < 0]. *)
Lemma set_display_from_tod_accepts_hour_zero :
  ~ tod_invariant (mk_tod 0 0 0 0 1) /\
  set_display_from_tod (mk_tod 0 0 0 0 1) 5 = Some (0, 270400503) /\
  ~ (set_display_from_tod (mk_tod 0 0 0 0 1) 5 = Some (1, 5) <->
     ~ tod_invariant (mk_tod 0 0 0 0 1)).
Proof.
  assert (Hinv : ~ tod_invariant (mk_tod 0 0 0 0 1)).
  { unfold tod_invariant. cbn. lia. }
  split; [ exact Hinv | ]. split; [ reflexivity | ].
  intros [_ Hback]. specialize (Hback Hinv). discriminate Hback.
Qed.

(** C2 (amended): for every struct whose [ampm] is at least 1,
    [set_display_from_tod] returns 1 and leaves [*display] as it was
    exactly when the second or the minute is outside [0,59], the hour is
    outside [0,12] (hour 0 passes), or [ampm] is neither 1 nor 2; and for
    every struct that meets the TimeOfDay invariant it returns 0. *)
Theorem set_display_from_tod_validation (tod : tod_t) (display : Z) :
  1 <= ampm tod ->
  (set_display_from_tod tod display = Some (1, display) <->
   (time_secs tod < 0 \/ 59 < time_secs tod \/
    time_mins tod < 0 \/ 59 < time_mins tod \/
    time_hours tod < 0 \/ 12 < time_hours tod \/
    (ampm tod <> AM /\ ampm tod <> PM))) /\
  (tod_invariant tod -> exists d, set_display_from_tod tod display = Some (0, d)).
Proof.
  intros Hampm. unfold AM, PM. split.
  - destruct (tod_rejected tod) eqn:Hrej.
    + rewrite (set_display_from_tod_rejects _ _ Hrej).
      apply tod_rejected_true in Hrej. split; [ intros _; lia | reflexivity ].
    + rewrite (set_display_from_tod_accepts _ _ Hrej).
      apply tod_rejected_false in Hrej. split; [ discriminate | lia ].
  - intros Hinv. rewrite (set_display_from_tod_accepts _ _ (invariant_passes_check _ Hinv)).
    eexists. reflexivity.
Qed.

Lemma set_display_from_tod_validation_witness :
  (set_display_from_tod (mk_tod 0 0 0 13 1) 5 = Some (1, 5) <->
   (time_secs (mk_tod 0 0 0 13 1) < 0 \/ 59 < time_secs (mk_tod 0 0 0 13 1) \/
    time_mins (mk_tod 0 0 0 13 1) < 0 \/ 59 < time_mins (mk_tod 0 0 0 13 1) \/
    time_hours (mk_tod 0 0 0 13 1) < 0 \/ 12 < time_hours (mk_tod 0 0 0 13 1) \/
    (ampm (mk_tod 0 0 0 13 1) <> AM /\ ampm (mk_tod 0 0 0 13 1) <> PM))) /\
  (tod_invariant (mk_tod 0 0 0 13 1) ->
   exists d, set_display_from_tod (mk_tod 0 0 0 13 1) 5 = Some (0, d)).
Proof.
  apply (set_display_from_tod_validation (mk_tod 0 0 0 13 1) 5).
  cbn. lia.
Defined.

(** C7: in every pattern a successful [set_display_from_tod] stores, bits
    21-27 are all zero exactly when the hour is below 10 and hold the glyph
    of digit 1 otherwise; the glyphs of the ones of the minutes, the tens of
    the minutes and the ones of the hours sit at bit offsets 0, 7 and 14. *)
Theorem set_display_from_tod_digit_fields (tod : tod_t) (display d : Z) :
  set_display_from_tod tod display = Some (0, d) ->
  (field 21 d = 0 <-> time_hours tod < 10) /\
  (10 <= time_hours tod ->
   field 21 d = glyph 1 /\ glyph 1 = C.binary [0;1;0;0;1;0;0]) /\
  field 0 d = glyph (C.rem (time_mins tod) 10) /\
  field 7 d = glyph (C.div (time_mins tod) 10) /\
  field 14 d = glyph (C.rem (time_hours tod) 10).
Proof.
  intros Hcall.
  pose proof (set_display_from_tod_success_inv _ _ _ Hcall) as Hok.
  rewrite (set_display_from_tod_accepts _ _ Hok) in Hcall.
  injection Hcall as <-.
  apply tod_rejected_false in Hok. destruct Hok as (_ & Hm & Hh & _).
  destruct (digits_in_range _ Hm) as (-> & -> & _ & _).
  rewrite (c_rem_nonneg (time_hours tod) 10) by lia.
  pose proof (glyph_7bit (time_mins tod mod 10)) as B0.
  pose proof (glyph_7bit (time_mins tod / 10)) as B1.
  pose proof (glyph_7bit (time_hours tod mod 10)) as B2.
  pose proof (tens_of_hours_7bit (time_hours tod)) as B3.
  pose proof (flag_bit_range (ampm tod)) as Bf.
  rewrite (field_21_compose _ _ _ _ _ B0 B1 B2 B3 Bf).
  rewrite (field_0_compose _ _ _ _ _ B0 B1 B2 B3 Bf).
  rewrite (field_7_compose _ _ _ _ _ B0 B1 B2 B3 Bf).
  rewrite (field_14_compose _ _ _ _ _ B0 B1 B2 B3 Bf).
  assert (Htens : 10 <= time_hours tod -> time_hours tod / 10 = 1).
  { intros Hge. symmetry. apply Z.div_unique with (r := time_hours tod - 10); lia. }
  destruct (Z.ltb_spec (time_hours tod) 10) as [Hlt | Hge].
  - repeat split; intros; (lia || reflexivity).
  - rewrite (Htens Hge). change (glyph 1) with 36.
    repeat split; intros; (lia || reflexivity).
Qed.

Lemma set_display_from_tod_digit_fields_witness :
  (field 21 344538091 = 0 <-> time_hours (mk_tod 39906 6 5 11 1) < 10) /\
  (10 <= time_hours (mk_tod 39906 6 5 11 1) ->
   field 21 344538091 = glyph 1 /\ glyph 1 = C.binary [0;1;0;0;1;0;0]) /\
  field 0 344538091 = glyph (C.rem (time_mins (mk_tod 39906 6 5 11 1)) 10) /\
  field 7 344538091 = glyph (C.div (time_mins (mk_tod 39906 6 5 11 1)) 10) /\
  field 14 344538091 = glyph (C.rem (time_hours (mk_tod 39906 6 5 11 1)) 10).
Proof.
  apply (set_display_from_tod_digit_fields (mk_tod 39906 6 5 11 1) 0 344538091).
  reflexivity.
Defined.

(** C8: in every pattern a successful [set_display_from_tod] stores exactly
    one of bit 28 and bit 29 is set: bit 28 (and not 29) when the meridiem
    is AM, bit 29 (and not 28) when it is PM. *)
Theorem set_display_from_tod_meridiem_bits (tod : tod_t) (display d : Z) :
  set_display_from_tod tod display = Some (0, d) ->
  Z.testbit d 28 = negb (Z.testbit d 29) /\
  (ampm tod = AM -> Z.testbit d 28 = true /\ Z.testbit d 29 = false) /\
  (ampm tod = PM -> Z.testbit d 28 = false /\ Z.testbit d 29 = true).
Proof.
  intros Hcall.
  pose proof (set_display_from_tod_success_inv _ _ _ Hcall) as Hok.
  rewrite (set_display_from_tod_accepts _ _ Hok) in Hcall.
  injection Hcall as <-.
  pose proof (glyph_7bit (time_mins tod mod 10)) as B0.
  pose proof (glyph_7bit (time_mins tod / 10)) as B1.
  pose proof (glyph_7bit (time_hours tod mod 10)) as B2.
  pose proof (tens_of_hours_7bit (time_hours tod)) as B3.
  pose proof (flag_bit_range (ampm tod)) as Bf.
  rewrite !(flag_bit_compose _ _ _ _ _ B0 B1 B2 B3 Bf) by lia.
  unfold AM, PM.
  destruct (Z.eqb_spec (ampm tod) 1) as [Heq | Hne].
  - repeat split; intros; (reflexivity || lia).
  - repeat split; intros; (reflexivity || lia).
Qed.

Lemma set_display_from_tod_meridiem_bits_witness :
  Z.testbit 613907447 28 = negb (Z.testbit 613907447 29) /\
  (ampm (mk_tod 86400 0 0 12 2) = AM ->
   Z.testbit 613907447 28 = true /\ Z.testbit 613907447 29 = false) /\
  (ampm (mk_tod 86400 0 0 12 2) = PM ->
   Z.testbit 613907447 28 = false /\ Z.testbit 613907447 29 = true).
Proof.
  apply (set_display_from_tod_meridiem_bits (mk_tod 86400 0 0 12 2) 0 613907447).
  reflexivity.
Defined.

(** ** The controller *)

(** C9: on a port value outside [0, 16*86400], such as -1 or 16*86400 + 1,
    [clock_update] returns 1 and [CLOCK_DISPLAY_PORT] keeps its value; on a
    valid port value it returns 0 and [CLOCK_DISPLAY_PORT] holds the pattern
    that [set_display_from_tod] encodes for the decoded time. *)
Theorem clock_update_fail_static :
  (forall (g : ports) (tod0 : tod_t),
     TIME_OF_DAY_PORT g < 0 \/ 16 * 86400 < TIME_OF_DAY_PORT g ->
     clock_update g tod0 = Some (1, g)) /\
  (forall (g : ports) (tod0 : tod_t),
     0 <= TIME_OF_DAY_PORT g <= 16 * 86400 ->
     exists (tod : tod_t) (pattern : Z),
       set_tod_from_ports g tod0 = (0, tod) /\
       set_display_from_tod tod 0 = Some (0, pattern) /\
       clock_update g tod0 = Some (0, mk_ports (TIME_OF_DAY_PORT g) pattern)) /\
  (forall (prior : Z) (tod0 : tod_t),
     clock_update (mk_ports (-1) prior) tod0 = Some (1, mk_ports (-1) prior) /\
     clock_update (mk_ports (16 * 86400 + 1) prior) tod0
     = Some (1, mk_ports (16 * 86400 + 1) prior)).
Proof.
  split; [ | split ].
  - intros g tod0 Hout. unfold clock_update.
    rewrite set_tod_from_ports_rejects by (unfold valid_port; lia).
    reflexivity.
  - intros g tod0 Hv. unfold clock_update.
    rewrite (set_tod_from_ports_decodes g tod0 Hv).
    pose proof (invariant_passes_check _ (decode_invariant (TIME_OF_DAY_PORT g))) as Hok.
    exists (Spec.decode (TIME_OF_DAY_PORT g)). eexists.
    split; [ reflexivity | ].
    split; [ apply (set_display_from_tod_accepts _ 0 Hok) | ].
    rewrite (set_display_from_tod_accepts _ 0 Hok). reflexivity.
  - intros prior tod0. split; reflexivity.
Qed.

Lemma clock_update_fail_static_witness :
  clock_update (mk_ports (-1) 344538091) (mk_tod 0 0 0 0 0)
  = Some (1, mk_ports (-1) 344538091) /\
  exists (tod : tod_t) (pattern : Z),
    set_tod_from_ports (mk_ports 638496 7) (mk_tod 0 0 0 0 0) = (0, tod) /\
    set_display_from_tod tod 0 = Some (0, pattern) /\
    clock_update (mk_ports 638496 7) (mk_tod 0 0 0 0 0)
    = Some (0, mk_ports (TIME_OF_DAY_PORT (mk_ports 638496 7)) pattern).
Proof.
  split.
  - apply (proj1 clock_update_fail_static (mk_ports (-1) 344538091) (mk_tod 0 0 0 0 0)).
    cbn. lia.
  - apply (proj1 (proj2 clock_update_fail_static) (mk_ports 638496 7) (mk_tod 0 0 0 0 0)).
    cbn. lia.
Defined.

(** C10: for every struct that passes the check of [set_display_from_tod]
    the four indices into the 10-element [mask] array, [time_mins % 10],
    [time_mins / 10], [time_hours % 10] and [time_hours / 10], are in
    [0, 9]: each read is in bounds and the call has a defined result. *)
Theorem set_display_from_tod_indices_in_bounds (tod : tod_t) (display : Z) :
  tod_rejected tod = false ->
  let min_ones := C.rem (time_mins tod) 10 in
  let min_tens := C.div (time_mins tod) 10 in
  let hrs_ones := C.rem (time_hours tod) 10 in
  let hrs_tens := C.div (time_hours tod) 10 in
  (0 <= min_ones <= 9 /\ 0 <= min_tens <= 9 /\
   0 <= hrs_ones <= 9 /\ 0 <= hrs_tens <= 9) /\
  (mask_at min_ones = Some (glyph min_ones) /\
   mask_at min_tens = Some (glyph min_tens) /\
   mask_at hrs_ones = Some (glyph hrs_ones) /\
   mask_at hrs_tens = Some (glyph hrs_tens)) /\
  exists d, set_display_from_tod tod display = Some (0, d).
Proof.
  intros Hok. cbv zeta.
  rewrite (set_display_from_tod_accepts _ display Hok).
  apply tod_rejected_false in Hok. destruct Hok as (_ & Hm & Hh & _).
  destruct (digits_in_range _ Hm) as (-> & -> & Hm1 & Hm10).
  assert (Hh' : 0 <= time_hours tod <= 59) by lia.
  destruct (digits_in_range _ Hh') as (-> & -> & Hh1 & Hh10).
  rewrite !mask_at_digit by lia.
  split; [ repeat split; lia | ].
  split; [ repeat split | eexists; reflexivity ].
Qed.

Lemma set_display_from_tod_indices_in_bounds_witness :
  let tod := mk_tod 43140 0 59 11 1 in
  let min_ones := C.rem (time_mins tod) 10 in
  let min_tens := C.div (time_mins tod) 10 in
  let hrs_ones := C.rem (time_hours tod) 10 in
  let hrs_tens := C.div (time_hours tod) 10 in
  (0 <= min_ones <= 9 /\ 0 <= min_tens <= 9 /\
   0 <= hrs_ones <= 9 /\ 0 <= hrs_tens <= 9) /\
  (mask_at min_ones = Some (glyph min_ones) /\
   mask_at min_tens = Some (glyph min_tens) /\
   mask_at hrs_ones = Some (glyph hrs_ones) /\
   mask_at hrs_tens = Some (glyph hrs_tens)) /\
  exists d, set_display_from_tod tod 0 = Some (0, d).
Proof.
  apply (set_display_from_tod_indices_in_bounds (mk_tod 43140 0 59 11 1) 0).
  reflexivity.
Defined.

(** * Further properties of the three functions *)

(** ** The decoder *)

(** The 12-hour form keeps the hour modulo 12. *)
Lemma hour_12_mod_12 (q : Z) :
  0 <= q < 24 ->
  Spec.hour_12 q mod 12 + (if 12 <=? q then 12 else 0) = q.
Proof.
  intros Hq. unfold Spec.hour_12.
  destruct (Z.eqb_spec q 0) as [-> | Hq0]; [ reflexivity | ].
  destruct (Z.ltb_spec 12 q) as [Hgt | Hle].
  - rewrite Z.mod_small by lia. destruct (Z.leb_spec 12 q); lia.
  - destruct (Z.eq_dec q 12) as [-> | Hq12]; [ reflexivity | ].
    rewrite Z.mod_small by lia. destruct (Z.leb_spec 12 q); lia.
Qed.

(** Seconds of the day split into hours, minutes and seconds. *)
Lemma day_secs_split (s : Z) :
  0 <= s ->
  s = 3600 * (s / 3600) + 60 * ((s mod 3600) / 60) + s mod 60.
Proof.
  intros Hs.
  pose proof (Z.div_mod s 3600 ltac:(lia)) as H1.
  pose proof (Z.div_mod (s mod 3600) 60 ltac:(lia)) as H2.
  assert (H3 : (s mod 3600) mod 60 = s mod 60).
  { rewrite (Z.mod_eq s 3600) by lia.
    replace (s - 3600 * (s / 3600)) with (s + - (60 * (s / 3600)) * 60) by lia.
    apply Z.mod_add. lia. }
  lia.
Qed.

(** Before the last half second of the day the fields a successful decode
    stores name the time without loss: the seconds of the day are rebuilt
    from the 12-hour hour, the meridiem, the minute and the second. *)
Theorem set_tod_from_ports_fields_rebuild_day_secs (g : ports) (tod t : tod_t) :
  set_tod_from_ports g tod = (0, t) ->
  day_secs t < 86400 ->
  day_secs t =
  3600 * (time_hours t mod 12 + (if ampm t =? 2 then 12 else 0))
  + 60 * time_mins t + time_secs t.
Proof.
  intros Hcall Hlt.
  destruct (set_tod_from_ports_success_inv g tod t Hcall) as [Hv ->].
  pose proof (round_bounds _ Hv) as Hs.
  unfold Spec.decode in *. cbv zeta in *.
  cbn [day_secs time_hours time_mins time_secs ampm] in *.
  set (s := Spec.round_half_up_16 (TIME_OF_DAY_PORT g)) in *.
  assert (Hq : 0 <= s / 3600 < 24).
  { split; [ apply Z.div_pos; lia | apply Z.div_lt_upper_bound; lia ]. }
  unfold Spec.hour_24. rewrite (Z.mod_small (s / 3600) 24) by lia.
  assert (Hpm : (Spec.meridiem s =? 2) = (12 <=? s / 3600)).
  { unfold Spec.meridiem, AM, PM.
    destruct (Z.leb_spec 43200 s) as [Hge | Hlow];
      destruct (Z.leb_spec 12 (s / 3600)) as [Hq12 | Hq12]; try reflexivity.
    - exfalso. assert (s / 3600 >= 12); [ | lia ].
      apply Z.le_ge. apply Z.div_le_lower_bound; lia.
    - exfalso. assert (s / 3600 < 12); [ | lia ].
      apply Z.div_lt_upper_bound; lia. }
  rewrite Hpm, (hour_12_mod_12 _ Hq).
  unfold Spec.minute, Spec.second. apply day_secs_split. lia.
Qed.

Lemma set_tod_from_ports_fields_rebuild_day_secs_witness :
  day_secs (mk_tod 46806 6 0 1 2) =
  3600 * (time_hours (mk_tod 46806 6 0 1 2) mod 12
          + (if ampm (mk_tod 46806 6 0 1 2) =? 2 then 12 else 0))
  + 60 * time_mins (mk_tod 46806 6 0 1 2) + time_secs (mk_tod 46806 6 0 1 2).
Proof.
  apply (set_tod_from_ports_fields_rebuild_day_secs
           (mk_ports (16 * 46806) 0) (mk_tod 0 0 0 0 0)).
  - reflexivity.
  - cbn. lia.
Defined.

(** A successful decode overwrites all five fields and reads nothing but
    [TIME_OF_DAY_PORT]: the struct it leaves depends neither on what the
    struct held before nor on [CLOCK_DISPLAY_PORT]. *)
Theorem set_tod_from_ports_overwrites_struct (g1 g2 : ports) (tod1 tod2 t : tod_t) :
  set_tod_from_ports g1 tod1 = (0, t) ->
  TIME_OF_DAY_PORT g2 = TIME_OF_DAY_PORT g1 ->
  set_tod_from_ports g2 tod2 = (0, t).
Proof.
  intros Hcall Hport.
  destruct (set_tod_from_ports_success_inv g1 tod1 t Hcall) as [Hv ->].
  rewrite <- Hport in *. now apply set_tod_from_ports_decodes.
Qed.

Lemma set_tod_from_ports_overwrites_struct_witness :
  set_tod_from_ports (mk_ports 638496 99) (mk_tod 1 2 3 4 5)
  = (0, mk_tod 39906 6 5 11 1).
Proof.
  apply (set_tod_from_ports_overwrites_struct
           (mk_ports 638496 0) (mk_ports 638496 99) (mk_tod 0 0 0 0 0) (mk_tod 1 2 3 4 5));
    reflexivity.
Defined.

(** The decoded seconds never run backwards: a larger valid port value
    gives [day_secs] at least as large. *)
Theorem set_tod_from_ports_day_secs_monotone (g1 g2 : ports) (tod1 tod2 t1 t2 : tod_t) :
  set_tod_from_ports g1 tod1 = (0, t1) ->
  set_tod_from_ports g2 tod2 = (0, t2) ->
  TIME_OF_DAY_PORT g1 <= TIME_OF_DAY_PORT g2 ->
  day_secs t1 <= day_secs t2.
Proof.
  intros H1 H2 Hle.
  destruct (set_tod_from_ports_success_inv _ _ _ H1) as [_ ->].
  destruct (set_tod_from_ports_success_inv _ _ _ H2) as [_ ->].
  cbn [Spec.decode day_secs]. rewrite <- !shr4_round. unfold C.shr.
  rewrite !Z.shiftr_div_pow2 by lia.
  apply Z.div_le_mono; [ reflexivity | lia ].
Qed.

Lemma set_tod_from_ports_day_secs_monotone_witness :
  day_secs (mk_tod 0 0 0 12 1) <= day_secs (mk_tod 1 1 0 12 1).
Proof.
  apply (set_tod_from_ports_day_secs_monotone
           (mk_ports 7 0) (mk_ports 8 0) (mk_tod 0 0 0 0 0) (mk_tod 0 0 0 0 0)).
  - reflexivity.
  - reflexivity.
  - cbn. lia.
Defined.

(** In terms of the port value the meridiem turns to PM half a second before
    noon: a successful decode stores [ampm = 2] exactly from the raw value
    [16*43200 - 8] on, and [ampm = 1] below it. *)
Theorem set_tod_from_ports_pm_threshold (g : ports) (tod t : tod_t) :
  set_tod_from_ports g tod = (0, t) ->
  (ampm t = 2 <-> 16 * 43200 - 8 <= TIME_OF_DAY_PORT g) /\
  (ampm t = 1 <-> TIME_OF_DAY_PORT g < 16 * 43200 - 8).
Proof.
  intros Hcall.
  destruct (set_tod_from_ports_success_inv _ _ _ Hcall) as [_ ->].
  cbn [Spec.decode ampm]. unfold Spec.meridiem, AM, PM.
  pose proof (round_nearest (TIME_OF_DAY_PORT g)) as Hn.
  destruct (Z.leb_spec 43200 (Spec.round_half_up_16 (TIME_OF_DAY_PORT g)));
    repeat split; intros; (lia || reflexivity || discriminate).
Qed.

Lemma set_tod_from_ports_pm_threshold_witness :
  (ampm (mk_tod 43200 0 0 12 2) = 2 <->
   16 * 43200 - 8 <= TIME_OF_DAY_PORT (mk_ports 691192 0)) /\
  (ampm (mk_tod 43200 0 0 12 2) = 1 <->
   TIME_OF_DAY_PORT (mk_ports 691192 0) < 16 * 43200 - 8).
Proof.
  apply (set_tod_from_ports_pm_threshold (mk_ports 691192 0) (mk_tod 0 0 0 0 0)).
  reflexivity.
Defined.

(** ** The encoder *)

(** The ten glyphs are pairwise different. *)
Lemma glyph_inj (i j : Z) :
  0 <= i <= 9 -> 0 <= j <= 9 -> glyph i = glyph j -> i = j.
Proof.
  intros Hi Hj.
  destruct (digit_cases i Hi) as [-> | [-> | [-> | [-> | [-> | [-> | [-> | [-> | [-> | ->]]]]]]]]];
    destruct (digit_cases j Hj) as [-> | [-> | [-> | [-> | [-> | [-> | [-> | [-> | [-> | ->]]]]]]]]];
    intros Heq; try reflexivity; exfalso; vm_compute in Heq; discriminate Heq.
Qed.

Lemma hour_tens (h : Z) :
  0 <= h <= 12 -> h / 10 = (if h <? 10 then 0 else 1).
Proof.
  intros Hh. destruct (Z.ltb_spec h 10) as [Hlt | Hge].
  - apply Z.div_small. lia.
  - symmetry. apply Z.div_unique with (r := h - 10); lia.
Qed.

Lemma testbit_below (x k n : Z) :
  0 <= x < 2 ^ k -> 0 <= k <= n -> Z.testbit x n = false.
Proof.
  intros Hx Hk. rewrite <- (Z.mod_small x (2 ^ k)) by lia.
  apply Z.mod_pow2_bits_high. lia.
Qed.

(** The composition an accepted struct is encoded as, with the ranges of
    its five arguments. *)
Lemma accepted_pattern (tod : tod_t) (display p : Z) :
  set_display_from_tod tod display = Some (0, p) ->
  (0 <= time_mins tod <= 59 /\ 0 <= time_hours tod <= 12) /\
  p = compose (glyph (time_mins tod mod 10)) (glyph (time_mins tod / 10))
              (glyph (time_hours tod mod 10))
              (if time_hours tod <? 10 then 0 else glyph (time_hours tod / 10))
              (if ampm tod =? 1 then 28 else 29).
Proof.
  intros Hcall.
  pose proof (set_display_from_tod_success_inv _ _ _ Hcall) as Hok.
  rewrite (set_display_from_tod_accepts _ _ Hok) in Hcall.
  apply tod_rejected_false in Hok. destruct Hok as (_ & Hm & Hh & _).
  split; [ tauto | congruence ].
Qed.

(** On success the stored pattern is built from the struct alone: whatever
    [*display] held before the call is overwritten, never or-ed in. *)
Theorem set_display_from_tod_overwrites_display (tod : tod_t) (display1 display2 p : Z) :
  set_display_from_tod tod display1 = Some (0, p) ->
  set_display_from_tod tod display2 = Some (0, p).
Proof.
  intros Hcall.
  pose proof (set_display_from_tod_success_inv _ _ _ Hcall) as Hok.
  rewrite (set_display_from_tod_accepts _ _ Hok) in Hcall.
  rewrite (set_display_from_tod_accepts _ _ Hok). exact Hcall.
Qed.

Lemma set_display_from_tod_overwrites_display_witness :
  set_display_from_tod (mk_tod 39906 6 5 11 1) 1073741823 = Some (0, 344538091).
Proof.
  apply (set_display_from_tod_overwrites_display (mk_tod 39906 6 5 11 1) 0).
  reflexivity.
Defined.

(** Seconds are checked but not shown: two structs that both pass the check
    and agree on minute, hour and [ampm] are encoded as the same pattern,
    whatever their [time_secs] and [day_secs]. *)
Theorem set_display_from_tod_ignores_seconds (tod1 tod2 : tod_t) (display1 display2 p : Z) :
  set_display_from_tod tod1 display1 = Some (0, p) ->
  0 <= time_secs tod2 <= 59 ->
  time_mins tod2 = time_mins tod1 ->
  time_hours tod2 = time_hours tod1 ->
  ampm tod2 = ampm tod1 ->
  set_display_from_tod tod2 display2 = Some (0, p).
Proof.
  intros Hcall Hs Hm Hh Ha.
  pose proof (set_display_from_tod_success_inv _ _ _ Hcall) as Hok.
  rewrite (set_display_from_tod_accepts _ _ Hok) in Hcall.
  assert (Hok2 : tod_rejected tod2 = false).
  { apply tod_rejected_false in Hok. apply tod_rejected_false.
    rewrite Hm, Hh, Ha. tauto. }
  rewrite (set_display_from_tod_accepts _ _ Hok2), Hm, Hh, Ha. exact Hcall.
Qed.

Lemma set_display_from_tod_ignores_seconds_witness :
  set_display_from_tod (mk_tod 0 59 5 11 1) 7 = Some (0, 344538091).
Proof.
  apply (set_display_from_tod_ignores_seconds
           (mk_tod 39906 6 5 11 1) (mk_tod 0 59 5 11 1) 0 7); try reflexivity.
  cbn. lia.
Defined.

(** The display is unambiguous: two successful encodings with the same
    pattern come from the same hour and the same minute, and either both or
    neither has [ampm = 1]. *)
Theorem set_display_from_tod_injective (tod1 tod2 : tod_t) (display1 display2 p : Z) :
  set_display_from_tod tod1 display1 = Some (0, p) ->
  set_display_from_tod tod2 display2 = Some (0, p) ->
  time_hours tod1 = time_hours tod2 /\
  time_mins tod1 = time_mins tod2 /\
  (ampm tod1 = 1 <-> ampm tod2 = 1).
Proof.
  intros H1 H2.
  destruct (accepted_pattern _ _ _ H1) as [[Hm1 Hh1] E1].
  destruct (accepted_pattern _ _ _ H2) as [[Hm2 Hh2] E2].
  pose proof (glyph_7bit (time_mins tod1 mod 10)) as A1.
  pose proof (glyph_7bit (time_mins tod1 / 10)) as B1.
  pose proof (glyph_7bit (time_hours tod1 mod 10)) as C1.
  pose proof (tens_of_hours_7bit (time_hours tod1)) as D1.
  pose proof (flag_bit_range (ampm tod1)) as F1.
  pose proof (glyph_7bit (time_mins tod2 mod 10)) as A2.
  pose proof (glyph_7bit (time_mins tod2 / 10)) as B2.
  pose proof (glyph_7bit (time_hours tod2 mod 10)) as C2.
  pose proof (tens_of_hours_7bit (time_hours tod2)) as D2.
  pose proof (flag_bit_range (ampm tod2)) as F2.
  pose proof (field_0_compose _ _ _ _ _ A1 B1 C1 D1 F1) as G0.
  pose proof (field_7_compose _ _ _ _ _ A1 B1 C1 D1 F1) as G7.
  pose proof (field_14_compose _ _ _ _ _ A1 B1 C1 D1 F1) as G14.
  pose proof (field_21_compose _ _ _ _ _ A1 B1 C1 D1 F1) as G21.
  pose proof (flag_bit_compose _ _ _ _ _ A1 B1 C1 D1 F1 28 ltac:(lia)) as G28.
  rewrite <- E1, E2 in G0, G7, G14, G21, G28.
  rewrite (field_0_compose _ _ _ _ _ A2 B2 C2 D2 F2) in G0.
  rewrite (field_7_compose _ _ _ _ _ A2 B2 C2 D2 F2) in G7.
  rewrite (field_14_compose _ _ _ _ _ A2 B2 C2 D2 F2) in G14.
  rewrite (field_21_compose _ _ _ _ _ A2 B2 C2 D2 F2) in G21.
  rewrite (flag_bit_compose _ _ _ _ _ A2 B2 C2 D2 F2 28 ltac:(lia)) in G28.
  assert (Hm1' : 0 <= time_mins tod1 mod 10 <= 9 /\ 0 <= time_mins tod1 / 10 <= 5)
    by (destruct (digits_in_range _ Hm1) as (_ & _ & ? & ?); tauto).
  assert (Hm2' : 0 <= time_mins tod2 mod 10 <= 9 /\ 0 <= time_mins tod2 / 10 <= 5)
    by (destruct (digits_in_range _ Hm2) as (_ & _ & ? & ?); tauto).
  pose proof (Z.mod_pos_bound (time_hours tod1) 10 ltac:(lia)) as Hr1.
  pose proof (Z.mod_pos_bound (time_hours tod2) 10 ltac:(lia)) as Hr2.
  apply glyph_inj in G0; [ | lia | lia ].
  apply glyph_inj in G7; [ | lia | lia ].
  apply glyph_inj in G14; [ | lia | lia ].
  pose proof (Z.div_mod (time_mins tod1) 10 ltac:(lia)) as Em1.
  pose proof (Z.div_mod (time_mins tod2) 10 ltac:(lia)) as Em2.
  pose proof (Z.div_mod (time_hours tod1) 10 ltac:(lia)) as Eh1.
  pose proof (Z.div_mod (time_hours tod2) 10 ltac:(lia)) as Eh2.
  rewrite (hour_tens _ Hh1) in G21, Eh1. rewrite (hour_tens _ Hh2) in G21, Eh2.
  split; [ | split ].
  - destruct (time_hours tod1 <? 10); destruct (time_hours tod2 <? 10);
      try lia; vm_compute in G21; discriminate G21.
  - lia.
  - destruct (Z.eqb_spec (ampm tod1) 1); destruct (Z.eqb_spec (ampm tod2) 1);
      try tauto; vm_compute in G28; discriminate G28.
Qed.

Lemma set_display_from_tod_injective_witness :
  time_hours (mk_tod 39906 6 5 11 1) = time_hours (mk_tod 0 59 5 11 1) /\
  time_mins (mk_tod 39906 6 5 11 1) = time_mins (mk_tod 0 59 5 11 1) /\
  (ampm (mk_tod 39906 6 5 11 1) = 1 <-> ampm (mk_tod 0 59 5 11 1) = 1).
Proof.
  apply (set_display_from_tod_injective
           (mk_tod 39906 6 5 11 1) (mk_tod 0 59 5 11 1) 0 7 344538091);
    reflexivity.
Defined.

(** Every stored pattern is a 30-bit value with a meridiem bit in it: it is
    at least [2^28] and below [2^30], so it is never the blank pattern 0 and
    never reaches the two top bits of the [int]. *)
Theorem set_display_from_tod_pattern_range (tod : tod_t) (display p : Z) :
  set_display_from_tod tod display = Some (0, p) ->
  2 ^ 28 <= p < 2 ^ 30.
Proof.
  intros Hcall.
  destruct (accepted_pattern _ _ _ Hcall) as [_ ->].
  pose proof (glyph_7bit (time_mins tod mod 10)) as B0.
  pose proof (glyph_7bit (time_mins tod / 10)) as B1.
  pose proof (glyph_7bit (time_hours tod mod 10)) as B2.
  pose proof (tens_of_hours_7bit (time_hours tod)) as B3.
  pose proof (flag_bit_range (ampm tod)) as Bf.
  pose proof (compose_30bit _ _ _ _ _ B0 B1 B2 B3 Bf) as Hrange.
  pose proof (flag_bit_compose _ _ _ _ _ B0 B1 B2 B3 Bf _ Bf) as Hflag.
  rewrite Z.eqb_refl in Hflag.
  split; [ | lia ].
  destruct (Z_lt_le_dec (compose (glyph (time_mins tod mod 10)) (glyph (time_mins tod / 10))
                                 (glyph (time_hours tod mod 10))
                                 (if time_hours tod <? 10 then 0
                                  else glyph (time_hours tod / 10))
                                 (if ampm tod =? 1 then 28 else 29)) (2 ^ 28))
    as [Hsmall | Hbig]; [ | exact Hbig ].
  rewrite (testbit_below _ 28) in Hflag by lia. discriminate Hflag.
Qed.

Lemma set_display_from_tod_pattern_range_witness :
  2 ^ 28 <= 344538091 < 2 ^ 30.
Proof.
  apply (set_display_from_tod_pattern_range (mk_tod 39906 6 5 11 1) 0).
  reflexivity.
Defined.

(** The check lets every [ampm] up to 2 through, and the encoder tests only
    [ampm == 1]: a struct with its other fields in range and an [ampm] that
    is not 1 (2, but also 0 or a negative value) is encoded with return
    code 0, bit 29 set and bit 28 clear. *)
Theorem set_display_from_tod_other_ampm_is_pm (tod : tod_t) (display : Z) :
  0 <= time_secs tod <= 59 ->
  0 <= time_mins tod <= 59 ->
  0 <= time_hours tod <= 12 ->
  ampm tod <= 2 ->
  ampm tod <> 1 ->
  exists p,
    set_display_from_tod tod display = Some (0, p) /\
    Z.testbit p 29 = true /\ Z.testbit p 28 = false.
Proof.
  intros Hs Hm Hh Ha Hne.
  assert (Hok : tod_rejected tod = false) by (apply tod_rejected_false; tauto).
  eexists. split; [ apply (set_display_from_tod_accepts _ _ Hok) | ].
  pose proof (glyph_7bit (time_mins tod mod 10)) as B0.
  pose proof (glyph_7bit (time_mins tod / 10)) as B1.
  pose proof (glyph_7bit (time_hours tod mod 10)) as B2.
  pose proof (tens_of_hours_7bit (time_hours tod)) as B3.
  pose proof (flag_bit_range (ampm tod)) as Bf.
  rewrite !(flag_bit_compose _ _ _ _ _ B0 B1 B2 B3 Bf) by lia.
  destruct (Z.eqb_spec (ampm tod) 1); [ contradiction | split; reflexivity ].
Qed.

Lemma set_display_from_tod_other_ampm_is_pm_witness :
  exists p,
    set_display_from_tod (mk_tod 0 0 30 9 0) 0 = Some (0, p) /\
    Z.testbit p 29 = true /\ Z.testbit p 28 = false.
Proof.
  apply (set_display_from_tod_other_ampm_is_pm (mk_tod 0 0 30 9 0) 0); cbn; lia.
Defined.

(** ** The controller *)

Lemma clock_update_invalid (g : ports) (tod0 : tod_t) :
  ~ valid_port (TIME_OF_DAY_PORT g) -> clock_update g tod0 = Some (1, g).
Proof.
  intros Hv. unfold clock_update.
  now rewrite (set_tod_from_ports_rejects g tod0 Hv).
Qed.

Lemma clock_update_valid (g : ports) (tod0 : tod_t) :
  valid_port (TIME_OF_DAY_PORT g) ->
  clock_update g tod0 =
  Some (0, mk_ports (TIME_OF_DAY_PORT g) (pattern_of (Spec.decode (TIME_OF_DAY_PORT g)))).
Proof.
  intros Hv. unfold clock_update.
  rewrite (set_tod_from_ports_decodes g tod0 Hv).
  pose proof (invariant_passes_check _ (decode_invariant (TIME_OF_DAY_PORT g))) as Hok.
  rewrite (set_display_from_tod_accepts _ 0 Hok). reflexivity.
Qed.

(** [clock_update] has a defined result on every port value and whatever the
    uninitialised local [tod] holds: it returns 0 or 1, never changes
    [TIME_OF_DAY_PORT], never reads [mask] out of bounds, and its result does
    not depend on the garbage in [tod]. *)
Theorem clock_update_defined (g : ports) (tod0 : tod_t) :
  exists (code : Z) (g' : ports),
    clock_update g tod0 = Some (code, g') /\
    (code = 0 \/ code = 1) /\
    TIME_OF_DAY_PORT g' = TIME_OF_DAY_PORT g /\
    forall tod1 : tod_t, clock_update g tod1 = Some (code, g').
Proof.
  destruct (valid_port_dec (TIME_OF_DAY_PORT g)) as [Hv | Hv].
  - exists 0. eexists. split; [ apply (clock_update_valid g tod0 Hv) | ].
    split; [ now left | ]. split; [ reflexivity | ].
    intros tod1. apply (clock_update_valid g tod1 Hv).
  - exists 1, g. split; [ apply (clock_update_invalid g tod0 Hv) | ].
    split; [ now right | ]. split; [ reflexivity | ].
    intros tod1. apply (clock_update_invalid g tod1 Hv).
Qed.

(** Running [clock_update] again on the globals it left changes nothing:
    the second call returns the same code and leaves the same globals. *)
Theorem clock_update_idempotent (g g' : ports) (tod0 tod1 : tod_t) (code : Z) :
  clock_update g tod0 = Some (code, g') ->
  clock_update g' tod1 = Some (code, g').
Proof.
  intros Hcall.
  destruct (valid_port_dec (TIME_OF_DAY_PORT g)) as [Hv | Hv].
  - rewrite (clock_update_valid g tod0 Hv) in Hcall.
    injection Hcall as <- <-.
    now rewrite clock_update_valid by exact Hv.
  - rewrite (clock_update_invalid g tod0 Hv) in Hcall.
    injection Hcall as <- <-.
    now apply clock_update_invalid.
Qed.

Lemma clock_update_idempotent_witness :
  clock_update (mk_ports 638496 344538091) (mk_tod 1 2 3 4 5)
  = Some (0, mk_ports 638496 344538091).
Proof.
  apply (clock_update_idempotent (mk_ports 638496 7) (mk_ports 638496 344538091)
                                 (mk_tod 0 0 0 0 0) (mk_tod 1 2 3 4 5) 0).
  reflexivity.
Defined.

(** Hour, minute and meridiem of the decoder are functions of the minute of
    the day. *)
Lemma fields_of_minute (s : Z) :
  0 <= s ->
  Spec.hour_24 s = (s / 60 / 60) mod 24 /\
  Spec.minute s = (s / 60) mod 60 /\
  Spec.meridiem s = (if 720 <=? s / 60 then PM else AM).
Proof.
  intros Hs. unfold Spec.hour_24, Spec.minute, Spec.meridiem.
  split; [ | split ].
  - rewrite Z.div_div by lia. reflexivity.
  - change 3600 with (60 * 60). rewrite Z.rem_mul_r by lia.
    rewrite Z.add_comm, (Z.mul_comm 60), Z.div_add_l by lia.
    rewrite (Z.div_small (s mod 60)) by (apply Z.mod_pos_bound; lia). lia.
  - destruct (Z.leb_spec 43200 s) as [Hge | Hlow];
      destruct (Z.leb_spec 720 (s / 60)) as [Hq | Hq]; try reflexivity; exfalso.
    + assert (720 <= s / 60) by (apply Z.div_le_lower_bound; lia). lia.
    + assert (s / 60 < 720) by (apply Z.div_lt_upper_bound; lia). lia.
Qed.

(** The display changes only with the minute: two valid port values whose
    decoded seconds fall in the same minute of the day make [clock_update]
    store the same pattern. *)
Theorem clock_update_display_per_minute (g1 g2 : ports) (tod1 tod2 t1 t2 : tod_t) :
  set_tod_from_ports g1 tod1 = (0, t1) ->
  set_tod_from_ports g2 tod2 = (0, t2) ->
  day_secs t1 / 60 = day_secs t2 / 60 ->
  exists p,
    clock_update g1 tod1 = Some (0, mk_ports (TIME_OF_DAY_PORT g1) p) /\
    clock_update g2 tod2 = Some (0, mk_ports (TIME_OF_DAY_PORT g2) p).
Proof.
  intros H1 H2 Hmin.
  destruct (set_tod_from_ports_success_inv _ _ _ H1) as [Hv1 ->].
  destruct (set_tod_from_ports_success_inv _ _ _ H2) as [Hv2 ->].
  rewrite (clock_update_valid g1 tod1 Hv1), (clock_update_valid g2 tod2 Hv2).
  exists (pattern_of (Spec.decode (TIME_OF_DAY_PORT g1))).
  split; [ reflexivity | ].
  do 2 f_equal. f_equal.
  pose proof (round_bounds _ Hv1) as Hs1. pose proof (round_bounds _ Hv2) as Hs2.
  cbn [Spec.decode day_secs] in Hmin.
  unfold pattern_of, Spec.decode. cbv zeta.
  cbn [time_mins time_hours ampm].
  destruct (fields_of_minute _ (proj1 Hs1)) as (-> & -> & ->).
  destruct (fields_of_minute _ (proj1 Hs2)) as (-> & -> & ->).
  now rewrite Hmin.
Qed.

Lemma clock_update_display_per_minute_witness :
  exists p,
    clock_update (mk_ports (16 * 39900) 0) (mk_tod 0 0 0 0 0)
    = Some (0, mk_ports (TIME_OF_DAY_PORT (mk_ports (16 * 39900) 0)) p) /\
    clock_update (mk_ports (16 * 39959 + 7) 5) (mk_tod 1 2 3 4 5)
    = Some (0, mk_ports (TIME_OF_DAY_PORT (mk_ports (16 * 39959 + 7) 5)) p).
Proof.
  apply (clock_update_display_per_minute
           (mk_ports (16 * 39900) 0) (mk_ports (16 * 39959 + 7) 5)
           (mk_tod 0 0 0 0 0) (mk_tod 1 2 3 4 5)
           (mk_tod 39900 0 5 11 1) (mk_tod 39959 59 5 11 1));
    reflexivity.
Defined.

Lemma pattern_of_range (tod : tod_t) : 2 ^ 28 <= pattern_of tod < 2 ^ 30.
Proof.
  unfold pattern_of.
  pose proof (glyph_7bit (time_mins tod mod 10)) as B0.
  pose proof (glyph_7bit (time_mins tod / 10)) as B1.
  pose proof (glyph_7bit (time_hours tod mod 10)) as B2.
  pose proof (tens_of_hours_7bit (time_hours tod)) as B3.
  pose proof (flag_bit_range (ampm tod)) as Bf.
  pose proof (compose_30bit _ _ _ _ _ B0 B1 B2 B3 Bf) as Hrange.
  pose proof (flag_bit_compose _ _ _ _ _ B0 B1 B2 B3 Bf _ Bf) as Hflag.
  rewrite Z.eqb_refl in Hflag.
  split; [ | lia ].
  apply Z.nlt_ge. intros Hsmall.
  rewrite (testbit_below _ 28) in Hflag by lia. discriminate Hflag.
Qed.

(** [clock_update] drops the return code of [set_display_from_tod] and
    stores the local [ptr], which starts at 0; still, a call that returns 0
    was made on a valid port value and never stores that 0: the display port
    then holds a pattern of at least [2^28] and below [2^30]. *)
Theorem clock_update_success_display (g g' : ports) (tod0 : tod_t) :
  clock_update g tod0 = Some (0, g') ->
  0 <= TIME_OF_DAY_PORT g <= 16 * 86400 /\
  2 ^ 28 <= CLOCK_DISPLAY_PORT g' < 2 ^ 30.
Proof.
  intros Hcall.
  destruct (valid_port_dec (TIME_OF_DAY_PORT g)) as [Hv | Hv].
  - rewrite (clock_update_valid g tod0 Hv) in Hcall.
    injection Hcall as <-. split; [ exact Hv | ].
    cbn [CLOCK_DISPLAY_PORT]. apply pattern_of_range.
  - rewrite (clock_update_invalid g tod0 Hv) in Hcall. discriminate Hcall.
Qed.

Lemma clock_update_success_display_witness :
  0 <= TIME_OF_DAY_PORT (mk_ports 1382400 0) <= 16 * 86400 /\
  2 ^ 28 <= CLOCK_DISPLAY_PORT (mk_ports 1382400 613907447) < 2 ^ 30.
Proof.
  apply (clock_update_success_display
           (mk_ports 1382400 0) (mk_ports 1382400 613907447) (mk_tod 0 0 0 0 0)).
  reflexivity.
Defined.
